(** * wolfsoftware.data_converter: the XML/mapping codec and its facade

    A shallow embedding of [dataconverter.py] and [exceptions.py].

    - Python [str] is [string]; a character stands for a code point in
      U+0000..U+00FF.
    - A Python [float] is held as the text that [repr] prints for it: the
      package only ever takes its [str].
    - A Python [dict] is an association list in insertion order; [PyDict.set]
      is item assignment, which keeps the position of a key already there.
    - An [xml.etree.ElementTree.Element] is the record [Element] (its [tail]
      is never read by this package and is left out).
    - [json], [yaml], [defusedxml] and the XML serialiser are collaborators
      outside the package: the facade takes them as the record
      [Collaborators].
    - The methods of the class run in a small state-and-exception monad over
      the attributes of [self]. *)

From Stdlib Require Import String Ascii List ZArith Bool DecimalString.
From ExtLib Require Import Structures.Monad.
Import ListNotations.
Import MonadNotation.
Open Scope string_scope.
Open Scope monad_scope.

(* ================================================================= *)
(** ** Python strings *)

Module PyStr.

(** [str.isspace] on one character of the Latin-1 range. *)
Definition is_space (c : ascii) : bool :=
  let n := nat_of_ascii c in
  (((9 <=? n) && (n <=? 13)) || ((28 <=? n) && (n <=? 32))
   || (n =? 133) || (n =? 160))%nat.

Fixpoint lstrip (s : string) : string :=
  match s with
  | EmptyString => EmptyString
  | String c r => if is_space c then lstrip r else s
  end.

Fixpoint rstrip (s : string) : string :=
  match s with
  | EmptyString => EmptyString
  | String c r =>
      match rstrip r with
      | EmptyString => if is_space c then EmptyString else String c EmptyString
      | r' => String c r'
      end
  end.

(** [s.strip()] *)
Definition strip (s : string) : string := rstrip (lstrip s).

(** Truth value of a string: non-empty. *)
Definition truthy (s : string) : bool :=
  match s with EmptyString => false | _ => true end.

(** [str(n)] for an [int]. *)
Definition of_int (z : Z) : string := NilZero.string_of_int (Z.to_int z).






End PyStr.

(* ================================================================= *)
(** ** Python floats, as [repr] prints them *)

Module PyFloat.

Definition is_digit (c : ascii) : bool :=
  let n := nat_of_ascii c in ((48 <=? n) && (n <=? 57))%nat.

(** The characters of a printed float: digits, the point, the exponent mark
    and its sign, and the letters of [inf] and [nan]. *)
Definition repr_char (c : ascii) : bool :=
  is_digit c
  || existsb (Ascii.eqb c) ["."; "e"; "+"; "-"; "i"; "n"; "f"; "a"]%char.

(** The number of leading digits, and what follows them. *)
Fixpoint digits (s : string) : nat * string :=
  match s with
  | EmptyString => (0, EmptyString)
  | String c r =>
      if is_digit c then let (n, rest) := digits r in (S n, rest) else (0, s)
  end.

(** [+] or [-] and two digits or more, up to the end. *)
Definition exponent (s : string) : bool :=
  match s with
  | EmptyString => false
  | String c r =>
      (Ascii.eqb c "+" || Ascii.eqb c "-")
      && let (n, rest) := digits r in (2 <=? n)%nat && (rest =? "")
  end.

(** [12.5], [0.0001], [1e+16], [1.5e-05]: digits, a point and digits, or
    one digit, an optional fraction and an exponent. *)
Definition finite (s : string) : bool :=
  let (n1, r1) := digits s in
  (1 <=? n1)%nat
  && match r1 with
     | String "." r2 =>
         let (n2, r3) := digits r2 in
         (1 <=? n2)%nat
         && match r3 with
            | EmptyString => true
            | String "e" r4 => (n1 =? 1)%nat && exponent r4
            | _ => false
            end
     | String "e" r4 => (n1 =? 1)%nat && exponent r4
     | _ => false
     end.

(** The texts [repr] prints for a float: [nan], or an optional [-] before
    [inf] or a finite number. *)
Definition is_repr (s : string) : bool :=
  forallb repr_char (list_ascii_of_string s)
  && ((s =? "nan")
      || let body := match s with String "-" r => r | _ => s end in
         (body =? "inf") || finite body).

End PyFloat.

(* ================================================================= *)
(** ** Python dictionaries with string keys *)

Module PyDict.
Section Dict.
Context {V : Type}.

Definition t := list (string * V).

(** [d.get(k)] ; [k in d] is [get k d <> None]. *)
Fixpoint get (k : string) (d : t) : option V :=
  match d with
  | [] => None
  | (k', v) :: r => if String.eqb k' k then Some v else get k r
  end.

Definition mem (k : string) (d : t) : bool :=
  match get k d with Some _ => true | None => false end.

(** [d[k] = v] *)
Fixpoint set (k : string) (v : V) (d : t) : t :=
  match d with
  | [] => [(k, v)]
  | (k', v') :: r =>
      if String.eqb k' k then (k', v) :: r else (k', v') :: set k v r
  end.

(** [d.update(e)] *)
Definition update (d e : t) : t :=
  fold_left (fun acc kv => set (fst kv) (snd kv) acc) e d.

Definition keys (d : t) : list string := map fst d.
End Dict.
Arguments t : clear implicits.
End PyDict.

(* ================================================================= *)
(** ** Values and element trees *)

Unset Elimination Schemes.

(** The Python values that travel through the codec. *)
Inductive value : Type :=
| VNone
| VBool (b : bool)
| VInt (n : Z)
| VFloat (repr : string)
| VStr (s : string)
| VList (items : list value)
| VDict (entries : list (string * value)).

(** [xml.etree.ElementTree.Element] *)
Inductive Element : Type :=
  mkElement {
    tag : string;
    attrib : list (string * string);
    text : option string;
    children : list Element
  }.

Set Elimination Schemes.

(** [ET.Element(name)]: no attributes, no text, no children. *)
Definition new_element (name : string) : Element := mkElement name [] None [].

(** [parent.append(child)] *)
Definition append (parent child : Element) : Element :=
  mkElement (tag parent) (attrib parent) (text parent) (children parent ++ [child]).

(** [parent.text = s] *)
Definition set_text (parent : Element) (s : string) : Element :=
  mkElement (tag parent) (attrib parent) (Some s) (children parent).

(** [str(data)] for a scalar; a list or a mapping never reaches it. *)
Definition str (data : value) : string :=
  match data with
  | VNone => "None"
  | VBool true => "True"
  | VBool false => "False"
  | VInt n => PyStr.of_int n
  | VFloat r => r
  | VStr s => s
  | VList _ | VDict _ => ""
  end.

Definition isinstance_list (v : value) : bool :=
  match v with VList _ => true | _ => false end.

(* ================================================================= *)
(** ** The tree codec *)

(** [_dict_to_xml_recursive(data, parent)]: the parent after the call.  The
    source appends the fresh child first and fills it afterwards through the
    same reference; the parent ends up holding the filled child. *)
Fixpoint _dict_to_xml_recursive (data : value) (parent : Element) : Element :=
  match data with
  | VDict entries =>
      fold_left
        (fun parent kv =>
           append parent (_dict_to_xml_recursive (snd kv) (new_element (fst kv))))
        entries parent
  | VList items =>
      fold_left
        (fun parent item =>
           append parent (_dict_to_xml_recursive item (new_element "item")))
        items parent
  | _ => set_text parent (str data)
  end.

(** The tree that [dict_to_xml] serialises. *)
Definition dict_to_xml_tree (data : value) (root_tag : string) : Element :=
  _dict_to_xml_recursive data (new_element root_tag).

(** One round of the inner loop of [_xml_to_dict_recursive]:
    [[
      if key in child_dict:
          if not isinstance(child_dict[key], list):
              child_dict[key] = [child_dict[key]]
          child_dict[key].append(value)
      else:
          child_dict[key] = value
    ]] *)
Definition fold_entry (child_dict : PyDict.t value) (kv : string * value)
  : PyDict.t value :=
  let (key, val) := kv in
  match PyDict.get key child_dict with
  | Some old =>
      let child_dict :=
        if negb (isinstance_list old)
        then PyDict.set key (VList [old]) child_dict
        else child_dict in
      match PyDict.get key child_dict with
      | Some (VList l) => PyDict.set key (VList (l ++ [val])) child_dict
      | _ => child_dict
      end
  | None => PyDict.set key val child_dict
  end.

(** The two nested loops over the decoded children. *)
Definition fold_children (decoded : list (PyDict.t value)) : PyDict.t value :=
  fold_left (fun child_dict dc => fold_left fold_entry dc child_dict) decoded [].

(** [element.text.strip() if element.text and element.text.strip() else None] *)
Definition stripped_text (element : Element) : option string :=
  match text element with
  | Some t =>
      if PyStr.truthy t && PyStr.truthy (PyStr.strip t)
      then Some (PyStr.strip t) else None
  | None => None
  end.

Definition attrib_entries (element : Element) : PyDict.t value :=
  fold_left (fun data_dict kv => PyDict.set ("@" ++ fst kv) (VStr (snd kv)) data_dict)
            (attrib element) [].

Definition nonempty {A : Type} (l : list A) : bool :=
  match l with [] => false | _ => true end.

Fixpoint _xml_to_dict_recursive (element : Element) : PyDict.t value :=
  let data_dict := attrib_entries element in
  let chn := children element in
  let data_dict :=
    if nonempty chn
    then PyDict.update data_dict (fold_children (map _xml_to_dict_recursive chn))
    else data_dict in
  let txt := stripped_text element in
  match txt, chn with
  | Some t, [] => [(tag element, VStr t)]
  | _, _ =>
      let data_dict :=
        match txt with
        | Some t => PyDict.set "#text" (VStr t) data_dict
        | None => data_dict
        end in
      if nonempty (attrib element) || nonempty chn
      then [(tag element, VDict data_dict)]
      else data_dict
  end.

Definition leaf (name s : string) : Element := mkElement name [] (Some s) [].


(* ================================================================= *)
(** ** The XML text leg, at the level of trees

    [dict_to_xml] hands its tree to [ET.tostring], [minidom.parseString] and
    [toprettyxml]; the decoder gets its tree from [defusedxml]'s
    [fromstring].  Both are outside the package.  [reparse depth e] is the
    tree the parser builds from the pretty-printed text of [e], for names and
    characters that XML carries unchanged: an element with children gets a
    line break and one tab per level in front of its first child, around its
    own text if it has some; an element without children keeps its text, and
    an empty text is no text. *)

Definition newline : string := String (ascii_of_nat 10) EmptyString.




(* ================================================================= *)
(** ** Exceptions *)

(** What the collaborators raise. *)
Inductive lib_error : Type :=
| JSONDecodeError
| YAMLError
| ParseError
| DefusedXmlException
| ExpatError
| TypeError.

(** [DataConverterError(message)] of [exceptions.py], next to the foreign
    exceptions that pass through the package.  What the interpreter itself
    may raise inside the package (its recursion limit, the digit limit of
    [str] on an [int]) is outside this model, and no statement below is
    about all the errors there are. *)
Inductive exn : Type :=
| DataConverterError (message : string)
| Foreign (e : lib_error).

(** [except DataConverterError] catches it. *)
Definition is_DataConverterError (e : exn) : bool :=
  match e with DataConverterError _ => true | Foreign _ => false end.

Inductive outcome (A : Type) : Type :=
| Return (a : A)
| Raise (e : exn).
Arguments Return {A} a.
Arguments Raise {A} e.

#[global] Instance Monad_outcome : Monad outcome :=
  {| ret := fun _ a => Return a;
     bind := fun _ _ c k => match c with Return a => k a | Raise e => Raise e end |}.

(** A call into a collaborator: its exception is not caught. *)
Definition call {A : Type} (r : lib_error + A) : outcome A :=
  match r with inr a => Return a | inl e => Raise (Foreign e) end.

(* ================================================================= *)
(** ** Collaborators and payloads *)

(** What a caller can bind as [data]. *)
Inductive payload : Type :=
| Obj (v : value)
| Bytes (b : string)
| ByteArray (b : string).

Definition isinstance_str (d : payload) : bool :=
  match d with Obj (VStr _) => true | _ => false end.

Definition isinstance_dict (d : payload) : bool :=
  match d with Obj (VDict _) => true | _ => false end.

(** [isinstance(d, (str, bytes, bytearray))] *)
Definition isinstance_text (d : payload) : bool :=
  match d with Obj (VStr _) | Bytes _ | ByteArray _ => true | _ => false end.

Record Collaborators : Type := {
  json_dumps : payload -> lib_error + string;
  json_loads : payload -> lib_error + value;
  yaml_dump : value -> lib_error + string;
  yaml_safe_load : string -> lib_error + value;
  (** [defusedxml.ElementTree.fromstring] *)
  fromstring : string -> lib_error + Element;
  (** [parseString(ET.tostring(root)).toprettyxml()] *)
  toprettyxml : Element -> lib_error + string
}.

(* ================================================================= *)
(** ** The class [DataConverter] *)

(** The attributes of an instance. *)
Record DataConverter : Type := {
  data : payload;
  data_type : string
}.

(** A method body: it may read and write [self] and may raise; [self]
    outlives the exception. *)
Definition method (A : Type) : Type := DataConverter -> outcome A * DataConverter.

#[global] Instance Monad_method : Monad method :=
  {| ret := fun _ a self => (Return a, self);
     bind := fun _ _ c k self =>
       match c self with
       | (Return a, self') => k a self'
       | (Raise e, self') => (Raise e, self')
       end |}.

Definition self_data : method payload := fun self => (Return (data self), self).
Definition self_data_type : method string := fun self => (Return (data_type self), self).
Definition raise {A : Type} (e : exn) : method A := fun self => (Raise e, self).

(** A static method called from a method body. *)
Definition static {A : Type} (c : outcome A) : method A := fun self => (c, self).

Definition supported_types : list string := ["json"; "xml"; "dict"; "yaml"].

(** [DataConverter(data, data_type)] *)
Definition __init__ (data : payload) (data_type : string) : outcome DataConverter :=
  if negb (existsb (String.eqb data_type) supported_types)
  then Raise (DataConverterError "Unsupported data type")
  else Return {| data := data; data_type := data_type |}.

(** The source tests [self.data_type] and [self.data] attribute by attribute;
    nothing is assigned in between, so each is read once per path here.  The
    default [root_tag='root'] is passed by the callers. *)
Section Methods.
Variable lib : Collaborators.

Definition dict_to_xml (data : value) (root_tag : string) : outcome string :=
  let root := new_element root_tag in
  let root := _dict_to_xml_recursive data root in
  call (toprettyxml lib root).

Definition xml_to_json (xml_data : string) : outcome string :=
  root <- call (fromstring lib xml_data) ;;
  let data_dict := _xml_to_dict_recursive root in
  call (json_dumps lib (Obj (VDict data_dict))).

Definition json_to_xml (json_data : value) (root_tag : string) : outcome string :=
  dict_to_xml json_data root_tag.

Definition yaml_to_dict (yaml_data : string) : outcome value :=
  call (yaml_safe_load lib yaml_data).

Definition to_json : method string :=
  dt <- self_data_type ;;
  if dt =? "xml" then
    d <- self_data ;;
    match d with
    | Obj (VStr s) => static (xml_to_json s)
    | _ => raise (DataConverterError "Invalid data type for XML conversion")
    end
  else if dt =? "yaml" then
    d <- self_data ;;
    match d with
    | Obj (VStr s) =>
        static (v <- yaml_to_dict s ;; call (json_dumps lib (Obj v)))
    | _ => raise (DataConverterError "Invalid data type for YAML conversion")
    end
  else if dt =? "dict" then
    d <- self_data ;;
    static (call (json_dumps lib d))
  else raise (DataConverterError "Unsupported data type for JSON conversion").

Definition to_xml : method string :=
  dt <- self_data_type ;;
  if dt =? "json" then
    d <- self_data ;;
    if isinstance_text d then
      static (v <- call (json_loads lib d) ;; json_to_xml v "root")
    else raise (DataConverterError "Invalid data type for JSON conversion")
  else if dt =? "dict" then
    d <- self_data ;;
    match d with
    | Obj (VDict entries) => static (dict_to_xml (VDict entries) "root")
    | _ => raise (DataConverterError "Invalid data type for dict conversion")
    end
  else if dt =? "yaml" then
    d <- self_data ;;
    match d with
    | Obj (VStr s) => static (v <- yaml_to_dict s ;; dict_to_xml v "root")
    | _ => raise (DataConverterError "Invalid data type for YAML conversion")
    end
  else raise (DataConverterError "Unsupported data type for XML conversion").

Definition to_yaml : method string :=
  dt <- self_data_type ;;
  if dt =? "json" then
    d <- self_data ;;
    if isinstance_text d then
      static (v <- call (json_loads lib d) ;; call (yaml_dump lib v))
    else raise (DataConverterError "Invalid data type for JSON conversion")
  else if dt =? "dict" then
    d <- self_data ;;
    match d with
    | Obj (VDict entries) => static (call (yaml_dump lib (VDict entries)))
    | _ => raise (DataConverterError "Invalid data type for dict conversion")
    end
  else if dt =? "xml" then
    d <- self_data ;;
    match d with
    | Obj (VStr s) =>
        static (root <- call (fromstring lib s) ;;
                let dict_data := _xml_to_dict_recursive root in
                call (yaml_dump lib (VDict dict_data)))
    | _ => raise (DataConverterError "Invalid data type for XML conversion")
    end
  else raise (DataConverterError "Unsupported data type for YAML conversion").

End Methods.

(** Collaborators that answer every call with their own exception; the
    paths that reach no collaborator do not depend on them. *)
Definition refusing : Collaborators :=
  {| json_dumps := fun _ => inl TypeError;
     json_loads := fun _ => inl JSONDecodeError;
     yaml_dump := fun _ => inl YAMLError;
     yaml_safe_load := fun _ => inl YAMLError;
     fromstring := fun _ => inl ParseError;
     toprettyxml := fun _ => inl ExpatError |}.

(** Collaborators that answer every call with the given text, value and
    tree. *)
Definition answering (reply : string) (v : value) (root : Element) : Collaborators :=
  {| json_dumps := fun _ => inr reply;
     json_loads := fun _ => inr v;
     yaml_dump := fun _ => inr reply;
     yaml_safe_load := fun _ => inr v;
     fromstring := fun _ => inr root;
     toprettyxml := fun _ => inr reply |}.

(* ================================================================= *)
(** ** Vocabulary of the statements *)

(** The native representation that a source tag stands for: text for [json],
    [xml] and [yaml] (the [json] paths also take bytes), a mapping for
    [dict]. *)
Definition expected_shape (data_type : string) (d : payload) : bool :=
  if data_type =? "json" then isinstance_text d
  else if data_type =? "dict" then isinstance_dict d
  else isinstance_str d.

(** The element has an attribute, a child or text that is not blank. *)
Definition has_content (e : Element) : bool :=
  nonempty (attrib e) || nonempty (children e)
  || match stripped_text e with Some _ => true | None => false end.

(** The values that a run of entries carries under the key [t]. *)
Definition values_at (t : string) (es : list (string * value)) : list value :=
  map snd (filter (fun kv => fst kv =? t) es).

(** What the children tagged [t] contribute, in document order. *)
Definition contributions (t : string) (chn : list Element) : list value :=
  flat_map (fun c => if tag c =? t then map snd (_xml_to_dict_recursive c) else []) chn.

(** One value is stored as it is, several as a list. *)
Definition folded (vs : list value) : option value :=
  match vs with
  | [] => None
  | [v] => Some v
  | _ => Some (VList vs)
  end.

(** The same tree with every blank text removed. *)
Fixpoint blank_to_absent (e : Element) : Element :=
  mkElement (tag e) (attrib e)
    (match stripped_text e with Some _ => text e | None => None end)
    (map blank_to_absent (children e)).

Fixpoint unique (keys : list string) : bool :=
  match keys with
  | [] => true
  | k :: r => negb (existsb (String.eqb k) r) && unique r
  end.





(* ================================================================= *)
(** ** Vocabulary of the further properties *)

(** The strings of a list in the order in which each occurs first. *)
Fixpoint first_occurrences (l : list string) : list string :=
  match l with
  | [] => []
  | k :: r => k :: filter (fun x => negb (x =? k)) (first_occurrences r)
  end.

(** The same tree with every text replaced by what [strip] leaves of it. *)
Fixpoint trim (e : Element) : Element :=
  mkElement (tag e) (attrib e) (stripped_text e) (map trim (children e)).

(** What the decoder can build: strings and mappings; a list only as the
    value of a key, with two elements or more, none of them a list. *)
Fixpoint decoded_ok (v : value) : bool :=
  match v with
  | VStr _ => true
  | VDict entries =>
      forallb
        (fun kv =>
           match snd kv with
           | VList items =>
               (2 <=? length items)%nat
               && forallb (fun x => negb (isinstance_list x) && decoded_ok x) items
           | _ => decoded_ok (snd kv)
           end) entries
  | _ => false
  end.

(** The same test for the value of one key. *)
Definition entry_ok (v : value) : bool :=
  match v with
  | VList items =>
      (2 <=? length items)%nat
      && forallb (fun x => negb (isinstance_list x) && decoded_ok x) items
  | _ => decoded_ok v
  end.

(** What the encoder can build: no attribute anywhere, and no element with
    both text and children. *)
Fixpoint encoded_ok (e : Element) : bool :=
  negb (nonempty (attrib e))
  && match text e with
     | Some _ => negb (nonempty (children e))
     | None => true
     end
  && forallb encoded_ok (children e).



(* ================================================================= *)
(** * Theorems *)

Open Scope list_scope.

(** ** Induction over trees and values *)

Lemma Element_ind (P : Element -> Prop) :
  (forall t a x chn, Forall P chn -> P (mkElement t a x chn)) ->
  forall e, P e.
Proof.
  intros step. fix IH 1. intros [t a x chn]. apply step.
  induction chn as [|c chn IHchn]; constructor; [apply IH | exact IHchn].
Qed.

Lemma value_ind (P : value -> Prop) :
  P VNone -> (forall b, P (VBool b)) -> (forall n, P (VInt n)) ->
  (forall r, P (VFloat r)) -> (forall s, P (VStr s)) ->
  (forall items, Forall P items -> P (VList items)) ->
  (forall entries, Forall (fun kv => P (snd kv)) entries -> P (VDict entries)) ->
  forall v, P v.
Proof.
  intros HN HB HI HF HS HL HD. fix IH 1. intros [ | b | n | r | s | items | entries ].
  - exact HN.
  - apply HB.
  - apply HI.
  - apply HF.
  - apply HS.
  - apply HL. induction items as [|x items IHitems]; constructor; [apply IH | exact IHitems].
  - apply HD. induction entries as [|[k x] entries IHentries]; constructor;
      [apply IH | exact IHentries].
Qed.
Example decode_person :
  _xml_to_dict_recursive
    (mkElement "person" [] None [leaf "name" "John"; leaf "age" "30"])
  = [("person", VDict [("name", VStr "John"); ("age", VStr "30")])].
Proof. reflexivity. Qed.

Example decode_repeated :
  _xml_to_dict_recursive
    (mkElement "r" [("id", "5")] (Some " hello ")
       [leaf "a" "1"; leaf "b" "x"; leaf "a" "2"; leaf "a" " 3 "])
  = [("r", VDict [("@id", VStr "5");
                  ("a", VList [VStr "1"; VStr "2"; VStr "3"]);
                  ("b", VStr "x"); ("#text", VStr "hello")])].
Proof. reflexivity. Qed.

Example decode_attribute :
  _xml_to_dict_recursive (mkElement "t" [("id", "5")] None [])
  = [("t", VDict [("@id", VStr "5")])].
Proof. reflexivity. Qed.

Example decode_mixed :
  _xml_to_dict_recursive (mkElement "t" [] (Some "hello") [leaf "a" "1"])
  = [("t", VDict [("a", VStr "1"); ("#text", VStr "hello")])].
Proof. reflexivity. Qed.

Example encode_person :
  dict_to_xml_tree (VDict [("person", VDict [("name", VStr "John"); ("age", VInt 30)])]) "root"
  = mkElement "root" [] None
      [mkElement "person" [] None [leaf "name" "John"; leaf "age" "30"]].
Proof. reflexivity. Qed.

(** ** Dictionaries *)

Section DictFacts.
Context {V : Type}.
Implicit Types (d e : PyDict.t V) (k : string) (v : V).

Lemma get_set k k' v d :
  PyDict.get k' (PyDict.set k v d) = if k =? k' then Some v else PyDict.get k' d.
Proof.
  induction d as [|[k0 v0] d IH]; simpl.
  - destruct (k =? k'); reflexivity.
  - destruct (String.eqb_spec k0 k) as [->|Hne]; simpl.
    + destruct (k =? k'); reflexivity.
    + destruct (String.eqb_spec k0 k') as [->|Hne'].
      * destruct (String.eqb_spec k k') as [->|_]; [congruence | reflexivity].
      * exact IH.
Qed.

Lemma get_None_notin k d : PyDict.get k d = None <-> ~ In k (PyDict.keys d).
Proof.
  induction d as [|[k0 v0] d IH]; simpl.
  - tauto.
  - destruct (String.eqb_spec k0 k) as [->|Hne].
    + split; [discriminate | intros H; exfalso; apply H; now left].
    + rewrite IH. split; [intros H [E|I]; [congruence | tauto] | tauto].
Qed.

Lemma set_fresh k v d : ~ In k (PyDict.keys d) -> PyDict.set k v d = d ++ [(k, v)].
Proof.
  induction d as [|[k0 v0] d IH]; simpl; intros H.
  - reflexivity.
  - destruct (String.eqb_spec k0 k) as [->|Hne]; [tauto|].
    rewrite IH by tauto. reflexivity.
Qed.

Lemma keys_set k v d :
  PyDict.keys (PyDict.set k v d)
  = if PyDict.mem k d then PyDict.keys d else PyDict.keys d ++ [k].
Proof.
  unfold PyDict.mem. induction d as [|[k0 v0] d IH]; simpl.
  - reflexivity.
  - destruct (String.eqb_spec k0 k) as [->|Hne]; simpl.
    + reflexivity.
    + rewrite IH. destruct (PyDict.get k d); reflexivity.
Qed.

Lemma NoDup_keys_set k v d :
  NoDup (PyDict.keys d) -> NoDup (PyDict.keys (PyDict.set k v d)).
Proof.
  intros H. rewrite keys_set. unfold PyDict.mem.
  destruct (PyDict.get k d) eqn:E; [exact H|].
  apply get_None_notin in E.
  apply NoDup_rev in H. rewrite <- (rev_involutive (_ ++ _)).
  apply NoDup_rev. rewrite rev_app_distr. simpl. constructor; [|exact H].
  rewrite <- in_rev. exact E.
Qed.

Lemma get_update d e k :
  NoDup (PyDict.keys e) ->
  PyDict.get k (PyDict.update d e)
  = match PyDict.get k e with Some v => Some v | None => PyDict.get k d end.
Proof.
  unfold PyDict.update. revert d.
  induction e as [|[k0 v0] e IH]; simpl; intros d H.
  - reflexivity.
  - inversion H as [|? ? Hnotin Hnd]; subst.
    rewrite (IH _ Hnd), get_set.
    destruct (String.eqb_spec k0 k) as [->|Hne].
    + apply get_None_notin in Hnotin. rewrite Hnotin. reflexivity.
    + reflexivity.
Qed.

Lemma update_fresh d e :
  NoDup (PyDict.keys (d ++ e)) -> PyDict.update d e = d ++ e.
Proof.
  unfold PyDict.update. revert d.
  induction e as [|[k0 v0] e IH]; simpl; intros d H.
  - now rewrite app_nil_r.
  - assert (Hd : ~ In k0 (PyDict.keys d)).
    { unfold PyDict.keys in *. rewrite map_app in H. simpl in H.
      apply NoDup_remove_2 in H. intros I. apply H. apply in_or_app. now left. }
    rewrite (set_fresh _ _ _ Hd).
    replace (d ++ (k0, v0) :: e) with ((d ++ [(k0, v0)]) ++ e)
      by (rewrite <- app_assoc; reflexivity).
    apply IH. rewrite <- app_assoc. exact H.
Qed.
End DictFacts.

(** ** Text *)

Lemma stripped_text_None (e : Element) :
  stripped_text e = None <->
  text e = None \/ exists s, text e = Some s /\ PyStr.strip s = "".
Proof.
  unfold stripped_text. destruct (text e) as [s|].
  - destruct s as [|c s].
    + simpl. split; [intros _; right; exists ""; split; reflexivity | reflexivity].
    + cbn [PyStr.truthy andb].
      destruct (PyStr.strip (String c s)) eqn:E; simpl.
      * split; [intros _; right; eexists; split; [reflexivity | exact E] | reflexivity].
      * split; [discriminate | intros [H|[s' [H1 H2]]]; [discriminate|]].
        injection H1 as <-. congruence.
  - split; [now left | reflexivity].
Qed.

Lemma stripped_text_Some (e : Element) (s : string) :
  text e = Some s -> PyStr.strip s <> "" -> stripped_text e = Some (PyStr.strip s).
Proof.
  unfold stripped_text. intros -> H.
  destruct s as [|c s]; [now elim H|].
  cbn [PyStr.truthy andb]. destruct (PyStr.strip (String c s)); [now elim H | reflexivity].
Qed.

(** ** The shape of a decoded element *)

Lemma decode_unfold (e : Element) :
  _xml_to_dict_recursive e =
    let data_dict := attrib_entries e in
    let chn := children e in
    let data_dict :=
      if nonempty chn
      then PyDict.update data_dict (fold_children (map _xml_to_dict_recursive chn))
      else data_dict in
    let txt := stripped_text e in
    match txt, chn with
    | Some t, [] => [(tag e, VStr t)]
    | _, _ =>
        let data_dict :=
          match txt with
          | Some t => PyDict.set "#text" (VStr t) data_dict
          | None => data_dict
          end in
        if nonempty (attrib e) || nonempty chn
        then [(tag e, VDict data_dict)]
        else data_dict
    end.
Proof. destruct e; reflexivity. Qed.

Lemma decode_leaf (e : Element) (t : string) :
  children e = [] -> stripped_text e = Some t ->
  _xml_to_dict_recursive e = [(tag e, VStr t)].
Proof.
  intros Hc Ht. rewrite decode_unfold. cbv zeta. rewrite Hc, Ht. reflexivity.
Qed.

Lemma decode_empty (e : Element) :
  has_content e = false -> _xml_to_dict_recursive e = [].
Proof.
  unfold has_content. intros H.
  apply orb_false_iff in H as [H Ht]. apply orb_false_iff in H as [Ha Hc].
  rewrite decode_unfold. cbv zeta.
  destruct (stripped_text e); [discriminate|].
  rewrite Ha, Hc. simpl.
  unfold attrib_entries. destruct (attrib e); [|discriminate].
  destruct (children e); reflexivity.
Qed.

Lemma decode_inner (e : Element) :
  nonempty (attrib e) || nonempty (children e) = true ->
  (children e = [] -> stripped_text e = None) ->
  _xml_to_dict_recursive e =
    [(tag e,
      VDict
        (let data_dict :=
           if nonempty (children e)
           then PyDict.update (attrib_entries e)
                  (fold_children (map _xml_to_dict_recursive (children e)))
           else attrib_entries e in
         match stripped_text e with
         | Some t => PyDict.set "#text" (VStr t) data_dict
         | None => data_dict
         end))].
Proof.
  intros H Hleaf. rewrite decode_unfold. cbv zeta. rewrite H.
  destruct (children e) as [|c chn].
  - rewrite (Hleaf eq_refl). reflexivity.
  - destruct (stripped_text e); reflexivity.
Qed.

Lemma decode_shape (e : Element) :
  has_content e = true ->
  exists v, _xml_to_dict_recursive e = [(tag e, v)] /\ isinstance_list v = false.
Proof.
  intros H.
  destruct (nonempty (attrib e) || nonempty (children e)) eqn:E.
  - destruct (children e) eqn:Ec.
    + destruct (stripped_text e) as [t|] eqn:Et.
      * exists (VStr t). split; [now apply decode_leaf | reflexivity].
      * eexists. split;
          [apply decode_inner; [rewrite Ec; exact E | intros _; exact Et] | reflexivity].
    + eexists. split;
        [apply decode_inner; [rewrite Ec; exact E | rewrite Ec; discriminate] | reflexivity].
  - unfold has_content in H. rewrite E in H. simpl in H.
    destruct (stripped_text e) as [t|] eqn:Et; [|discriminate].
    apply orb_false_iff in E as [_ Ec].
    exists (VStr t). split; [apply decode_leaf|reflexivity]; [|exact Et].
    destruct (children e); [reflexivity | discriminate].
Qed.

Lemma stripped_text_blank_to_absent (e : Element) :
  stripped_text (blank_to_absent e) = stripped_text e.
Proof.
  destruct e as [n a x chn]. unfold stripped_text at 1. simpl.
  destruct (stripped_text _) eqn:E; [exact E | reflexivity].
Qed.

Lemma decode_blank_to_absent (e : Element) :
  _xml_to_dict_recursive (blank_to_absent e) = _xml_to_dict_recursive e.
Proof.
  induction e as [n a x chn IH] using Element_ind.
  rewrite (decode_unfold (blank_to_absent _)), (decode_unfold (mkElement n a x chn)).
  rewrite stripped_text_blank_to_absent. unfold attrib_entries.
  cbn [blank_to_absent children attrib tag].
  assert (Hmap : map _xml_to_dict_recursive (map blank_to_absent chn)
                 = map _xml_to_dict_recursive chn).
  { rewrite map_map. apply map_ext_in. intros c Hc.
    rewrite Forall_forall in IH. now apply IH. }
  rewrite Hmap. destruct chn; reflexivity.
Qed.

(** ** C3: what an element hands to its parent *)

(** C3, as stated, fails: an element without attributes, children and text
    decodes to the empty mapping, not to [{tag: {}}], and its parent gets no
    entry for it. *)
Lemma C3_empty_element_counterexample :
  has_content (new_element "a") = false /\
  ~ (exists v, _xml_to_dict_recursive (new_element "a") = [(tag (new_element "a"), v)]) /\
  _xml_to_dict_recursive (new_element "a") = [] /\
  _xml_to_dict_recursive (mkElement "r" [] None [new_element "a"]) = [("r", VDict [])].
Proof.
  repeat split; try reflexivity. intros [v H]. discriminate H.
Qed.

(** C3, amended: an element with an attribute, a child or text that is not
    blank decodes to a single-entry mapping whose key is its tag; an element
    with none of them decodes to the empty mapping. *)
Theorem C3_decoded_entry (e : Element) :
  (has_content e = true ->
   exists v, _xml_to_dict_recursive e = [(tag e, v)]) /\
  (has_content e = false -> _xml_to_dict_recursive e = []).
Proof.
  split.
  - intros H. destruct (decode_shape e H) as [v [Hv _]]. now exists v.
  - apply decode_empty.
Qed.

Lemma C3_decoded_entry_witness :
  (exists v, _xml_to_dict_recursive (mkElement "p" [("id", "5")] None []) = [("p", v)]) /\
  _xml_to_dict_recursive (new_element "a") = [].
Proof.
  split.
  - exact (proj1 (C3_decoded_entry (mkElement "p" [("id", "5")] None [])) eq_refl).
  - exact (proj2 (C3_decoded_entry (new_element "a")) eq_refl).
Defined.

(** ** C8: leaves and blank text *)

(** C8: an element without attributes and children whose text is not blank
    decodes to [{tag: text.strip()}]; blank text counts as no text, at the
    element and anywhere below it. *)
Theorem C8_leaf_and_blank_text (e : Element) :
  (forall s, attrib e = [] -> children e = [] -> text e = Some s ->
             PyStr.strip s <> "" ->
             _xml_to_dict_recursive e = [(tag e, VStr (PyStr.strip s))]) /\
  (stripped_text e = None <->
   text e = None \/ exists s, text e = Some s /\ PyStr.strip s = "") /\
  _xml_to_dict_recursive (blank_to_absent e) = _xml_to_dict_recursive e.
Proof.
  split; [|split].
  - intros s _ Hc Ht Hs. apply decode_leaf; [exact Hc|].
    now apply stripped_text_Some.
  - apply stripped_text_None.
  - apply decode_blank_to_absent.
Qed.

Lemma C8_leaf_and_blank_text_witness :
  _xml_to_dict_recursive (leaf "name" "  John ") = [("name", VStr "John")].
Proof.
  refine (proj1 (C8_leaf_and_blank_text (leaf "name" "  John ")) "  John "
            eq_refl eq_refl eq_refl _).
  vm_compute. discriminate.
Defined.

(** ** C9: attributes next to text *)

(** C9: an element with attributes, text that is not blank and no children
    decodes to [{tag: text.strip()}]; its attributes are not in the result. *)
Theorem C9_attributes_dropped_beside_text (e : Element) (s : string) :
  attrib e <> [] -> children e = [] -> text e = Some s -> PyStr.strip s <> "" ->
  _xml_to_dict_recursive e = [(tag e, VStr (PyStr.strip s))].
Proof.
  intros _ Hc Ht Hs. apply decode_leaf; [exact Hc|]. now apply stripped_text_Some.
Qed.

Lemma C9_attributes_dropped_beside_text_witness :
  _xml_to_dict_recursive (mkElement "p" [("id", "5"); ("lang", "en")] (Some " hi ") [])
  = [("p", VStr "hi")].
Proof.
  apply (C9_attributes_dropped_beside_text
           (mkElement "p" [("id", "5"); ("lang", "en")] (Some " hi ") []) " hi ").
  - discriminate.
  - reflexivity.
  - reflexivity.
  - vm_compute. discriminate.
Defined.

(** ** The folding loop *)

Lemma fold_children_concat (decoded : list (PyDict.t value)) (acc : PyDict.t value) :
  fold_left (fun child_dict dc => fold_left fold_entry dc child_dict) decoded acc
  = fold_left fold_entry (concat decoded) acc.
Proof.
  revert acc. induction decoded as [|dc decoded IH]; simpl; intros acc.
  - reflexivity.
  - now rewrite IH, fold_left_app.
Qed.

Lemma get_fold_entry (cd : PyDict.t value) (k t : string) (v : value) :
  PyDict.get t (fold_entry cd (k, v)) =
    if k =? t then
      match PyDict.get t cd with
      | None => Some v
      | Some (VList l) => Some (VList (l ++ [v]))
      | Some old => Some (VList [old; v])
      end
    else PyDict.get t cd.
Proof.
  unfold fold_entry.
  destruct (String.eqb_spec k t) as [->|Hne].
  - destruct (PyDict.get t cd) as [old|] eqn:E.
    + destruct old; simpl; rewrite ?E, ?get_set, ?String.eqb_refl;
        try rewrite get_set, String.eqb_refl; reflexivity.
    + now rewrite get_set, String.eqb_refl.
  - apply String.eqb_neq in Hne.
    destruct (PyDict.get k cd) as [old|] eqn:E.
    + destruct old; simpl; rewrite ?E, ?get_set, ?String.eqb_refl;
        rewrite ?get_set, ?Hne; try reflexivity.
    + now rewrite get_set, Hne.
Qed.

Lemma NoDup_keys_fold_entry (cd : PyDict.t value) (kv : string * value) :
  NoDup (PyDict.keys cd) -> NoDup (PyDict.keys (fold_entry cd kv)).
Proof.
  intros H. destruct kv as [k v]. unfold fold_entry.
  destruct (PyDict.get k cd) as [old|]; [|now apply NoDup_keys_set].
  set (cd' := if negb (isinstance_list old) then _ else _).
  assert (H' : NoDup (PyDict.keys cd')).
  { subst cd'. destruct (negb _); [now apply NoDup_keys_set | exact H]. }
  destruct (PyDict.get k cd') as [[]|]; try exact H'. now apply NoDup_keys_set.
Qed.

Lemma NoDup_keys_fold_entries (es : list (string * value)) (cd : PyDict.t value) :
  NoDup (PyDict.keys cd) -> NoDup (PyDict.keys (fold_left fold_entry es cd)).
Proof.
  revert cd. induction es as [|kv es IH]; simpl; intros cd H.
  - exact H.
  - apply IH. now apply NoDup_keys_fold_entry.
Qed.

Lemma NoDup_keys_fold_children (decoded : list (PyDict.t value)) :
  NoDup (PyDict.keys (fold_children decoded)).
Proof.
  unfold fold_children. rewrite fold_children_concat.
  apply NoDup_keys_fold_entries. constructor.
Qed.

Lemma values_at_app (t : string) (es es' : list (string * value)) :
  values_at t (es ++ es') = values_at t es ++ values_at t es'.
Proof. unfold values_at. now rewrite filter_app, map_app. Qed.

Lemma values_at_not_list (t : string) (es : list (string * value)) :
  Forall (fun kv => isinstance_list (snd kv) = false) es ->
  Forall (fun v => isinstance_list v = false) (values_at t es).
Proof.
  intros H. unfold values_at. apply Forall_map.
  apply Forall_forall. intros kv Hin. apply filter_In in Hin as [Hin _].
  rewrite Forall_forall in H. now apply H.
Qed.

(** The loop stores under each key what [folded] says. *)
Lemma get_fold_entries (t : string) (es : list (string * value)) :
  Forall (fun kv => isinstance_list (snd kv) = false) es ->
  PyDict.get t (fold_left fold_entry es []) = folded (values_at t es).
Proof.
  induction es as [|[k v] es IH] using rev_ind; intros H.
  - reflexivity.
  - apply Forall_app in H as [Hes _].
    rewrite fold_left_app, values_at_app. cbn [fold_left].
    rewrite get_fold_entry, (IH Hes).
    replace (values_at t [(k, v)]) with (if k =? t then [v] else [])
      by (unfold values_at; simpl; now destruct (k =? t)).
    destruct (k =? t); [|now rewrite app_nil_r].
    pose proof (values_at_not_list t es Hes) as Hnl.
    destruct (values_at t es) as [|v0 [|v1 vs]]; simpl.
    + reflexivity.
    + inversion Hnl as [|? ? Hv0 _]; subst. destruct v0; try discriminate; reflexivity.
    + reflexivity.
Qed.

Lemma decode_entries_not_list (e : Element) :
  Forall (fun kv => isinstance_list (snd kv) = false) (_xml_to_dict_recursive e).
Proof.
  destruct (has_content e) eqn:H.
  - destruct (decode_shape e H) as [v [-> Hv]]. repeat constructor. exact Hv.
  - rewrite (decode_empty e H). constructor.
Qed.

Lemma decode_one_or_none (e : Element) :
  (has_content e = false /\ _xml_to_dict_recursive e = []) \/
  (has_content e = true /\ exists v, _xml_to_dict_recursive e = [(tag e, v)]).
Proof.
  destruct (has_content e) eqn:H.
  - right. split; [reflexivity|]. destruct (decode_shape e H) as [v [Hv _]]. now exists v.
  - left. split; [reflexivity | now apply decode_empty].
Qed.

Lemma values_at_decode (t : string) (c : Element) :
  values_at t (_xml_to_dict_recursive c)
  = if tag c =? t then map snd (_xml_to_dict_recursive c) else [].
Proof.
  destruct (decode_one_or_none c) as [[_ ->]|[_ [v ->]]]; unfold values_at; simpl.
  - now destruct (tag c =? t).
  - now destruct (tag c =? t).
Qed.

Lemma contributions_values_at (t : string) (chn : list Element) :
  contributions t chn = values_at t (concat (map _xml_to_dict_recursive chn)).
Proof.
  unfold contributions. induction chn as [|c chn IH]; simpl.
  - reflexivity.
  - now rewrite values_at_app, values_at_decode, IH.
Qed.

Lemma get_fold_children (t : string) (chn : list Element) :
  PyDict.get t (fold_children (map _xml_to_dict_recursive chn))
  = folded (contributions t chn).
Proof.
  unfold fold_children. rewrite fold_children_concat, contributions_values_at.
  apply get_fold_entries. apply Forall_concat, Forall_map, Forall_forall.
  intros c _. apply decode_entries_not_list.
Qed.

(** ** C1: the folding rule *)

(** C1, as stated, fails: two children share the tag [a], yet the decoded
    mapping holds a plain string under [a], because the first child has no
    content and hands nothing to its parent; two such children leave no key
    at all. *)
Lemma C1_empty_sibling_counterexample :
  map tag (children (mkElement "r" [] None [new_element "a"; leaf "a" "x"])) = ["a"; "a"] /\
  _xml_to_dict_recursive (mkElement "r" [] None [new_element "a"; leaf "a" "x"])
  = [("r", VDict [("a", VStr "x")])] /\
  _xml_to_dict_recursive (mkElement "r" [] None [new_element "a"; new_element "a"])
  = [("r", VDict [])].
Proof. repeat split. Qed.

(** C1, amended: among the children that have an attribute, a child or text
    that is not blank, the values of those that share a tag are collected in
    document order, the first one included, into a list under that tag; the
    value of the only such child with a tag is stored as it is; a child with
    no content hands over nothing.  This holds in the mapping built by the
    loop and in the mapping the element decodes to. *)
Theorem C1_folding_rule (e : Element) (t : string) :
  let vs := contributions t (children e) in
  let child_dict := fold_children (map _xml_to_dict_recursive (children e)) in
  PyDict.get t child_dict = folded vs /\
  (forall c, In c (children e) ->
     (has_content c = false /\ _xml_to_dict_recursive c = []) \/
     (has_content c = true /\ exists v, _xml_to_dict_recursive c = [(tag c, v)])) /\
  (vs <> [] -> t <> "#text" ->
   exists data_dict,
     _xml_to_dict_recursive e = [(tag e, VDict data_dict)] /\
     PyDict.get t data_dict = folded vs).
Proof.
  cbv zeta. split; [apply get_fold_children|]. split.
  - intros c _. apply decode_one_or_none.
  - intros Hvs Ht.
    assert (Hc : children e <> []).
    { intros E. apply Hvs. now rewrite E. }
    assert (Hne : nonempty (children e) = true).
    { destruct (children e); [now elim Hc | reflexivity]. }
    eexists. split.
    + apply decode_inner; [now rewrite Hne, orb_true_r | intros E; now elim Hc].
    + cbv zeta. rewrite Hne.
      assert (Hget : PyDict.get t
                (PyDict.update (attrib_entries e)
                   (fold_children (map _xml_to_dict_recursive (children e))))
              = folded (contributions t (children e))).
      { rewrite get_update by apply NoDup_keys_fold_children.
        rewrite get_fold_children.
        destruct (contributions t (children e)) as [|v0 [|v1 vs]];
          [now elim Hvs | reflexivity | reflexivity]. }
      destruct (stripped_text e); [|exact Hget].
      rewrite get_set.
      destruct (String.eqb_spec "#text" t) as [E|_]; [now elim Ht | exact Hget].
Qed.

Lemma C1_folding_rule_witness :
  exists data_dict,
    _xml_to_dict_recursive
      (mkElement "r" [("id", "5")] (Some "hello")
         [leaf "a" "1"; leaf "b" "x"; leaf "a" "2"; new_element "a"; leaf "a" "3"])
    = [("r", VDict data_dict)] /\
    PyDict.get "a" data_dict = Some (VList [VStr "1"; VStr "2"; VStr "3"]).
Proof.
  pose proof (C1_folding_rule
                (mkElement "r" [("id", "5")] (Some "hello")
                   [leaf "a" "1"; leaf "b" "x"; leaf "a" "2"; new_element "a"; leaf "a" "3"])
                "a") as H.
  cbv zeta in H. destruct H as [_ [_ H]].
  apply H.
  - vm_compute. discriminate.
  - discriminate.
Defined.

(** ** Strings that stripping leaves alone, and blank strings *)









Example float_texts :
  map PyFloat.is_repr
    ["1.5"; "-0.0"; "0.0001"; "1e+16"; "1.5e-05"; "1e+100"; "inf"; "-inf"; "nan";
     ""; "1"; "1."; ".5"; "12e+16"; "1e5"; "1.5 "; "-nan"; "0x1p3"]
  = [true; true; true; true; true; true; true; true; true;
     false; false; false; false; false; false; false; false; false].
Proof. reflexivity. Qed.




(** ** The encoder builds one child per entry *)

Lemma fold_append {A : Type} (g : A -> Element) (l : list A) (p : Element) :
  fold_left (fun parent x => append parent (g x)) l p
  = mkElement (tag p) (attrib p) (text p) (children p ++ map g l).
Proof.
  revert p. induction l as [|x l IH]; intros p; simpl.
  - rewrite app_nil_r. now destruct p.
  - rewrite IH. simpl. now rewrite <- app_assoc.
Qed.

Lemma encode_dict (entries : list (string * value)) (name : string) :
  _dict_to_xml_recursive (VDict entries) (new_element name)
  = mkElement name [] None
      (map (fun kv => _dict_to_xml_recursive (snd kv) (new_element (fst kv))) entries).
Proof. simpl. now rewrite fold_append. Qed.

Lemma encode_list (items : list value) (name : string) :
  _dict_to_xml_recursive (VList items) (new_element name)
  = mkElement name [] None
      (map (fun item => _dict_to_xml_recursive item (new_element "item")) items).
Proof. simpl. now rewrite fold_append. Qed.

(** ** Folding entries with distinct keys, and with one key *)

Lemma unique_NoDup (keys : list string) : unique keys = true -> NoDup keys.
Proof.
  induction keys as [|k r IH]; simpl; intros H.
  - constructor.
  - apply andb_true_iff in H as [Hk Hr]. constructor; [|now apply IH].
    intros Hin. apply negb_true_iff in Hk.
    assert (E : existsb (String.eqb k) r = true).
    { apply existsb_exists. exists k. split; [exact Hin | apply String.eqb_refl]. }
    congruence.
Qed.

Lemma fold_entries_fresh (es cd : PyDict.t value) :
  NoDup (PyDict.keys (cd ++ es)) -> fold_left fold_entry es cd = cd ++ es.
Proof.
  revert cd. induction es as [|[k v] es IH]; simpl; intros cd H.
  - now rewrite app_nil_r.
  - assert (Hk : ~ In k (PyDict.keys cd)).
    { unfold PyDict.keys in *. rewrite map_app in H. simpl in H.
      apply NoDup_remove_2 in H. intros I. apply H. apply in_or_app. now left. }
    pose proof Hk as Hget. apply get_None_notin in Hget. rewrite Hget.
    rewrite (set_fresh _ _ _ Hk).
    replace (cd ++ (k, v) :: es) with ((cd ++ [(k, v)]) ++ es)
      by (rewrite <- app_assoc; reflexivity).
    apply IH. rewrite <- app_assoc. exact H.
Qed.





(** ** The round trip, element by element *)




(** ** Without sequences the image is the value, up to the text of numbers *)




(** ** C2: the round trip *)




(** ** The facade *)

Lemma bind_method {A B : Type} (c : method A) (k : A -> method B) (self : DataConverter) :
  bind c k self =
    match c self with
    | (Return a, self') => k a self'
    | (Raise e, self') => (Raise e, self')
    end.
Proof. reflexivity. Qed.

Ltac method_cases :=
  repeat first
    [ rewrite bind_method
    | progress cbn [self_data self_data_type static raise fst snd]
    | match goal with
      | |- context [if ?b then _ else _] => destruct b eqn:?
      | |- context [match ?x with _ => _ end] => destruct x eqn:?
      end ].

Lemma supported_iff (dt : string) :
  existsb (String.eqb dt) supported_types = true <-> In dt supported_types.
Proof.
  rewrite existsb_exists. split.
  - intros [x [Hin E]]. apply String.eqb_eq in E. now subst.
  - intros H. exists dt. split; [exact H | apply String.eqb_refl].
Qed.

(** ** C7: the constructor *)

(** C7: a tag outside [json], [xml], [dict], [yaml] makes the constructor
    raise [DataConverterError] whatever the payload; a tag inside makes it
    return the instance bound to the payload and the tag. *)
Theorem C7_constructor (d : payload) (dt : string) :
  (~ In dt supported_types ->
   __init__ d dt = Raise (DataConverterError "Unsupported data type")) /\
  (In dt supported_types ->
   __init__ d dt = Return {| data := d; data_type := dt |}).
Proof.
  unfold __init__. split; intros H.
  - destruct (existsb (String.eqb dt) supported_types) eqn:E; [|reflexivity].
    apply supported_iff in E. contradiction.
  - apply supported_iff in H. now rewrite H.
Qed.

Lemma C7_constructor_witness :
  __init__ (Obj (VStr "some data")) "unsupported"
  = Raise (DataConverterError "Unsupported data type") /\
  __init__ (Obj (VInt 7)) "yaml" = Return {| data := Obj (VInt 7); data_type := "yaml" |}.
Proof.
  split.
  - apply (proj1 (C7_constructor (Obj (VStr "some data")) "unsupported")).
    simpl. intros [H|[H|[H|[H|[]]]]]; discriminate H.
  - apply (proj2 (C7_constructor (Obj (VInt 7)) "yaml")).
    simpl. tauto.
Defined.

(** ** C6: no conversion to the source format *)

(** C6: [to_json] on a [json] source, [to_xml] on an [xml] source and
    [to_yaml] on a [yaml] source raise [DataConverterError], whatever the
    payload and whatever the collaborators do. *)
Theorem C6_same_format_raises (lib : Collaborators) (d : payload) :
  fst (to_json lib {| data := d; data_type := "json" |})
  = Raise (DataConverterError "Unsupported data type for JSON conversion") /\
  fst (to_xml lib {| data := d; data_type := "xml" |})
  = Raise (DataConverterError "Unsupported data type for XML conversion") /\
  fst (to_yaml lib {| data := d; data_type := "yaml" |})
  = Raise (DataConverterError "Unsupported data type for YAML conversion").
Proof. repeat split. Qed.

(** ** C10: the methods leave the instance alone *)

(** C10: after [to_json], [to_xml] or [to_yaml], whether it returned or
    raised, the instance holds the payload and the tag it held before, so a
    second call has the outcome of the first. *)
Theorem C10_frame (lib : Collaborators) (self : DataConverter) :
  (snd (to_json lib self) = self /\
   snd (to_xml lib self) = self /\
   snd (to_yaml lib self) = self) /\
  (fst (to_json lib (snd (to_json lib self))) = fst (to_json lib self) /\
   fst (to_xml lib (snd (to_xml lib self))) = fst (to_xml lib self) /\
   fst (to_yaml lib (snd (to_yaml lib self))) = fst (to_yaml lib self)).
Proof.
  assert (H : snd (to_json lib self) = self /\ snd (to_xml lib self) = self
              /\ snd (to_yaml lib self) = self).
  { repeat split.
    - unfold to_json. method_cases; reflexivity.
    - unfold to_xml. method_cases; reflexivity.
    - unfold to_yaml. method_cases; reflexivity. }
  split; [exact H|].
  destruct H as [Hj [Hx Hy]]. now rewrite Hj, Hx, Hy.
Qed.

(** ** C4: the payload is checked against its tag, except on one path *)

(** C4: on a supported tag, a payload of another shape makes [to_xml] and
    [to_yaml] raise [DataConverterError], and [to_json] too unless the tag is
    [dict]; on a [dict] source [to_json] hands the payload to [json.dumps]
    as it is and raises no [DataConverterError] of its own. *)
Theorem C4_shape_checks (lib : Collaborators) (dt : string) (d : payload) :
  In dt supported_types -> expected_shape dt d = false ->
  (exists msg, fst (to_xml lib {| data := d; data_type := dt |})
               = Raise (DataConverterError msg)) /\
  (exists msg, fst (to_yaml lib {| data := d; data_type := dt |})
               = Raise (DataConverterError msg)) /\
  (dt <> "dict" ->
   exists msg, fst (to_json lib {| data := d; data_type := dt |})
               = Raise (DataConverterError msg)) /\
  (dt = "dict" ->
   fst (to_json lib {| data := d; data_type := dt |}) = call (json_dumps lib d) /\
   forall msg, fst (to_json lib {| data := d; data_type := dt |})
               <> Raise (DataConverterError msg)).
Proof.
  intros Hdt Hshape.
  destruct Hdt as [<-|[<-|[<-|[<-|[]]]]]; unfold expected_shape in Hshape;
    simpl in Hshape.
  - (* json *)
    split; [|split; [|split]]; try (intros E; discriminate E).
    + unfold to_xml. cbn. rewrite Hshape. eexists. reflexivity.
    + unfold to_yaml. cbn. rewrite Hshape. eexists. reflexivity.
    + intros _. eexists. reflexivity.
  - (* xml *)
    split; [|split; [|split]]; try (intros E; discriminate E).
    + eexists. reflexivity.
    + destruct d as [[]| |]; try discriminate; eexists; reflexivity.
    + intros _. destruct d as [[]| |]; try discriminate; eexists; reflexivity.
  - (* dict *)
    split; [|split; [|split]].
    + destruct d as [[]| |]; try discriminate; eexists; reflexivity.
    + destruct d as [[]| |]; try discriminate; eexists; reflexivity.
    + intros H. now elim H.
    + intros _. split; [reflexivity|].
      intros msg. cbn. destruct (json_dumps lib d); discriminate.
  - (* yaml *)
    split; [|split; [|split]]; try (intros E; discriminate E).
    + destruct d as [[]| |]; try discriminate; eexists; reflexivity.
    + eexists. reflexivity.
    + intros _. destruct d as [[]| |]; try discriminate; eexists; reflexivity.
Qed.

Lemma C4_shape_checks_witness :
  (exists msg, fst (to_xml refusing {| data := Obj (VStr "some data"); data_type := "dict" |})
               = Raise (DataConverterError msg)) /\
  forall msg, fst (to_json refusing {| data := Obj (VStr "some data"); data_type := "dict" |})
              <> Raise (DataConverterError msg).
Proof.
  pose proof (C4_shape_checks refusing "dict" (Obj (VStr "some data"))) as H.
  destruct H as [Hxml [_ [_ Hjson]]].
  - simpl. tauto.
  - reflexivity.
  - split; [exact Hxml | exact (proj2 (Hjson eq_refl))].
Defined.

(** ** C5: which errors are [DataConverterError] *)

(** C5, as stated, fails: [to_xml] on a [json] source whose text the JSON
    parser rejects lets the parser's [JSONDecodeError] through, and that is no
    [DataConverterError]. *)
Lemma C5_parse_error_counterexample :
  __init__ (Obj (VStr "{")) "json"
  = Return {| data := Obj (VStr "{"); data_type := "json" |} /\
  json_loads refusing (Obj (VStr "{")) = inl JSONDecodeError /\
  fst (to_xml refusing {| data := Obj (VStr "{"); data_type := "json" |})
  = Raise (Foreign JSONDecodeError) /\
  is_DataConverterError (Foreign JSONDecodeError) = false.
Proof. repeat split. Qed.

Lemma unoffered_raises (lib : Collaborators) (self : DataConverter) :
  (~ In (data_type self) ["xml"; "yaml"; "dict"] ->
   fst (to_json lib self)
   = Raise (DataConverterError "Unsupported data type for JSON conversion")) /\
  (~ In (data_type self) ["json"; "dict"; "yaml"] ->
   fst (to_xml lib self)
   = Raise (DataConverterError "Unsupported data type for XML conversion")) /\
  (~ In (data_type self) ["json"; "dict"; "xml"] ->
   fst (to_yaml lib self)
   = Raise (DataConverterError "Unsupported data type for YAML conversion")).
Proof.
  destruct self as [d dt]. cbn [data_type].
  split; [|split]; intros H;
    [unfold to_json | unfold to_xml | unfold to_yaml];
    rewrite bind_method; cbn [self_data_type data_type];
    repeat match goal with
      | |- context [dt =? ?t] =>
          destruct (String.eqb_spec dt t) as [->|?];
          [exfalso; apply H; simpl; tauto|]
      end;
    reflexivity.
Qed.

Lemma mismatch_raises (lib : Collaborators) (dt : string) (d : payload) :
  In dt supported_types -> expected_shape dt d = false ->
  (exists msg, fst (to_xml lib {| data := d; data_type := dt |})
               = Raise (DataConverterError msg)) /\
  (exists msg, fst (to_yaml lib {| data := d; data_type := dt |})
               = Raise (DataConverterError msg)) /\
  (dt <> "dict" ->
   exists msg, fst (to_json lib {| data := d; data_type := dt |})
               = Raise (DataConverterError msg)).
Proof.
  intros Hdt Hshape.
  destruct Hdt as [<-|[<-|[<-|[<-|[]]]]]; unfold expected_shape in Hshape;
    simpl in Hshape; (split; [|split]).
  - unfold to_xml. cbn. rewrite Hshape. eexists. reflexivity.
  - unfold to_yaml. cbn. rewrite Hshape. eexists. reflexivity.
  - intros _. eexists. reflexivity.
  - eexists. reflexivity.
  - destruct d as [[]| |]; try discriminate; eexists; reflexivity.
  - intros _. destruct d as [[]| |]; try discriminate; eexists; reflexivity.
  - destruct d as [[]| |]; try discriminate; eexists; reflexivity.
  - destruct d as [[]| |]; try discriminate; eexists; reflexivity.
  - intros H. now elim H.
  - destruct d as [[]| |]; try discriminate; eexists; reflexivity.
  - eexists. reflexivity.
  - intros _. destruct d as [[]| |]; try discriminate; eexists; reflexivity.
Qed.

(** C5, amended: what the facade raises for an unsupported tag at
    construction, for a target that the tag of the instance does not offer
    (its own format among them) and for a payload that fails the shape test
    of the path is a [DataConverterError]; for JSON, XML or YAML text that
    the parser rejects, the path raises the parser's exception as it is, and
    that is no [DataConverterError]. *)
Theorem C5_error_family (lib : Collaborators) :
  (forall d dt e, __init__ d dt = Raise e -> is_DataConverterError e = true) /\
  (forall self,
     (~ In (data_type self) ["xml"; "yaml"; "dict"] ->
      exists msg, fst (to_json lib self) = Raise (DataConverterError msg)) /\
     (~ In (data_type self) ["json"; "dict"; "yaml"] ->
      exists msg, fst (to_xml lib self) = Raise (DataConverterError msg)) /\
     (~ In (data_type self) ["json"; "dict"; "xml"] ->
      exists msg, fst (to_yaml lib self) = Raise (DataConverterError msg))) /\
  (forall dt d, In dt supported_types -> expected_shape dt d = false ->
     (exists msg, fst (to_xml lib {| data := d; data_type := dt |})
                  = Raise (DataConverterError msg)) /\
     (exists msg, fst (to_yaml lib {| data := d; data_type := dt |})
                  = Raise (DataConverterError msg)) /\
     (dt <> "dict" ->
      exists msg, fst (to_json lib {| data := d; data_type := dt |})
                  = Raise (DataConverterError msg))) /\
  (forall d le, isinstance_text d = true -> json_loads lib d = inl le ->
     fst (to_xml lib {| data := d; data_type := "json" |}) = Raise (Foreign le) /\
     fst (to_yaml lib {| data := d; data_type := "json" |}) = Raise (Foreign le)) /\
  (forall s le, fromstring lib s = inl le ->
     fst (to_json lib {| data := Obj (VStr s); data_type := "xml" |}) = Raise (Foreign le) /\
     fst (to_yaml lib {| data := Obj (VStr s); data_type := "xml" |}) = Raise (Foreign le) /\
     xml_to_json lib s = Raise (Foreign le)) /\
  (forall s le, yaml_safe_load lib s = inl le ->
     fst (to_json lib {| data := Obj (VStr s); data_type := "yaml" |}) = Raise (Foreign le) /\
     fst (to_xml lib {| data := Obj (VStr s); data_type := "yaml" |}) = Raise (Foreign le) /\
     yaml_to_dict lib s = Raise (Foreign le)) /\
  (forall le, is_DataConverterError (Foreign le) = false).
Proof.
  split; [|split; [|split; [|split; [|split; [|split]]]]].
  - intros d dt e. unfold __init__.
    destruct (negb _); intros [= <-]. reflexivity.
  - intros self. destruct (unoffered_raises lib self) as [Hj [Hx Hy]].
    split; [|split]; intros H; eexists; [apply Hj | apply Hx | apply Hy]; exact H.
  - apply mismatch_raises.
  - intros d le Hd Hle. cbn. rewrite Hd. cbn. rewrite Hle. split; reflexivity.
  - intros s le Hle. cbn. unfold xml_to_json. cbn. rewrite Hle. repeat split.
  - intros s le Hle. cbn. unfold yaml_to_dict. cbn. rewrite Hle. repeat split.
  - reflexivity.
Qed.

Lemma C5_error_family_witness :
  is_DataConverterError (DataConverterError "Unsupported data type") = true /\
  (exists msg, fst (to_json refusing {| data := Obj (VStr "{}"); data_type := "json" |})
               = Raise (DataConverterError msg)) /\
  (exists msg, fst (to_yaml refusing {| data := Obj (VInt 5); data_type := "dict" |})
               = Raise (DataConverterError msg)) /\
  fst (to_yaml refusing {| data := Obj (VStr "<a>"); data_type := "xml" |})
  = Raise (Foreign ParseError).
Proof.
  destruct (C5_error_family refusing) as [Hinit [Hoffer [Hshape [_ [Hxml _]]]]].
  split; [|split; [|split]].
  - apply (Hinit (Obj VNone) "csv"). reflexivity.
  - apply (proj1 (Hoffer {| data := Obj (VStr "{}"); data_type := "json" |})).
    simpl. intros [H|[H|[H|[]]]]; discriminate H.
  - apply (proj1 (proj2 (Hshape "dict" (Obj (VInt 5)) (or_intror (or_intror (or_introl eq_refl)))
                           eq_refl))).
  - apply (Hxml "<a>" ParseError). reflexivity.
Defined.

(* ================================================================= *)
(** * Further properties of the codec and the facade *)

(** ** Stripping twice, and stripping padded text *)

Lemma lstrip_head (s : string) :
  PyStr.lstrip s = "" \/
  exists c r, PyStr.lstrip s = String c r /\ PyStr.is_space c = false.
Proof.
  induction s as [|c r IH]; simpl.
  - now left.
  - destruct (PyStr.is_space c) eqn:E; [exact IH|].
    right. exists c, r. now split.
Qed.

Lemma rstrip_head (c : ascii) (r : string) :
  PyStr.is_space c = false -> exists r', PyStr.rstrip (String c r) = String c r'.
Proof.
  intros H. simpl. destruct (PyStr.rstrip r).
  - rewrite H. now exists "".
  - eexists. reflexivity.
Qed.

Lemma rstrip_idem (s : string) : PyStr.rstrip (PyStr.rstrip s) = PyStr.rstrip s.
Proof.
  induction s as [|c r IH]; simpl; [reflexivity|].
  destruct (PyStr.rstrip r) as [|c' r'] eqn:E.
  - destruct (PyStr.is_space c) eqn:Ec; simpl; [reflexivity | now rewrite Ec].
  - change (PyStr.rstrip (String c (String c' r')))
      with (match PyStr.rstrip (String c' r') with
            | EmptyString => if PyStr.is_space c then EmptyString else String c EmptyString
            | r'' => String c r''
            end).
    now rewrite IH.
Qed.

Lemma strip_idem (s : string) : PyStr.strip (PyStr.strip s) = PyStr.strip s.
Proof.
  unfold PyStr.strip.
  destruct (lstrip_head s) as [->|[c [r [-> Hc]]]]; [reflexivity|].
  destruct (rstrip_head c r Hc) as [r' E]. rewrite E.
  replace (PyStr.lstrip (String c r')) with (String c r') by (simpl; now rewrite Hc).
  now rewrite <- E, rstrip_idem.
Qed.






Lemma stripped_text_inv (e : Element) (t : string) :
  stripped_text e = Some t ->
  exists s, text e = Some s /\ t = PyStr.strip s /\ PyStr.truthy t = true.
Proof.
  unfold stripped_text. destruct (text e) as [s|]; [|discriminate].
  destruct (PyStr.truthy s); simpl; [|discriminate].
  destruct (PyStr.truthy (PyStr.strip s)) eqn:E; [|discriminate].
  intros [= <-]. exists s. now repeat split.
Qed.

Lemma stripped_text_trim (e : Element) : stripped_text (trim e) = stripped_text e.
Proof.
  destruct e as [n a x chn]. unfold stripped_text at 1. simpl.
  destruct (stripped_text (mkElement n a x chn)) as [t|] eqn:E; [|reflexivity].
  destruct (stripped_text_inv _ _ E) as [s [_ [-> Ht]]].
  rewrite strip_idem, Ht.
  destruct (PyStr.strip s); [discriminate Ht | reflexivity].
Qed.


(** ** The decoder reads text only through [strip] *)

(** X1: the decoder sees the text of an element, and of every element below
    it, only through [strip]: replacing each text by its stripped form (no
    text when nothing is left) does not change the decoded mapping. *)
Theorem X1_decode_trim (e : Element) :
  _xml_to_dict_recursive (trim e) = _xml_to_dict_recursive e.
Proof.
  induction e as [n a x chn IH] using Element_ind.
  rewrite (decode_unfold (trim _)), (decode_unfold (mkElement n a x chn)).
  rewrite stripped_text_trim. unfold attrib_entries.
  cbn [trim children attrib tag].
  assert (Hmap : map _xml_to_dict_recursive (map trim chn)
                 = map _xml_to_dict_recursive chn).
  { rewrite map_map. apply map_ext_in. intros c Hc.
    rewrite Forall_forall in IH. now apply IH. }
  rewrite Hmap. destruct chn; reflexivity.
Qed.







(** ** Attributes, children and text without a key in common *)

Lemma fold_left_map {A B C : Type} (f : A -> B -> A) (g : C -> B) (l : list C) (a : A) :
  fold_left f (map g l) a = fold_left (fun a x => f a (g x)) l a.
Proof. revert a. induction l as [|x l IH]; simpl; intros a; [reflexivity | apply IH]. Qed.

Lemma NoDup_map_at (ks : list string) :
  NoDup ks -> NoDup (map (fun k => ("@" ++ k)%string) ks).
Proof.
  induction ks as [|k ks IH]; simpl; intros H; [constructor|].
  inversion H as [|? ? Hnotin Hnd]; subst. constructor; [|now apply IH].
  intros Hin. apply in_map_iff in Hin as [k' [E Hk']].
  injection E as ->. contradiction.
Qed.

Lemma attrib_entries_distinct (e : Element) :
  NoDup (map fst (attrib e)) ->
  attrib_entries e = map (fun kv => (("@" ++ fst kv)%string, VStr (snd kv))) (attrib e).
Proof.
  intros H. unfold attrib_entries.
  transitivity
    (PyDict.update (V := value) []
       (map (fun kv => (("@" ++ fst kv)%string, VStr (snd kv))) (attrib e))).
  - unfold PyDict.update. now rewrite fold_left_map.
  - apply update_fresh. cbn [app]. unfold PyDict.keys. rewrite map_map. cbn [fst].
    rewrite <- (map_map fst (fun k => ("@" ++ k)%string)). now apply NoDup_map_at.
Qed.

(** X3: when the attributes (with their [@]), the entries of the children
    and [#text] have no key in common, an element that is not a text leaf
    decodes to its tag over exactly these entries, in this order: the
    attributes with their values as they are, the children in document order,
    the stripped text last. *)
Theorem X3_entries_in_order (e : Element) :
  let es :=
    map (fun kv => (("@" ++ fst kv)%string, VStr (snd kv))) (attrib e)
    ++ concat (map _xml_to_dict_recursive (children e))
    ++ match stripped_text e with Some t => [("#text", VStr t)] | None => [] end in
  nonempty (attrib e) || nonempty (children e) = true ->
  (children e = [] -> stripped_text e = None) ->
  NoDup (map fst (attrib e)) ->
  NoDup (PyDict.keys es) ->
  _xml_to_dict_recursive e = [(tag e, VDict es)].
Proof.
  cbv zeta. intros Hinner Hleaf Hattr Hnd.
  rewrite (decode_inner e Hinner Hleaf). cbv zeta.
  rewrite (attrib_entries_distinct e Hattr).
  set (A := map (fun kv => (("@" ++ fst kv)%string, VStr (snd kv))) (attrib e)) in *.
  set (C := concat (map _xml_to_dict_recursive (children e))) in *.
  assert (HAC : NoDup (PyDict.keys (A ++ C))).
  { rewrite app_assoc in Hnd. unfold PyDict.keys in *. rewrite map_app in Hnd.
    now apply NoDup_app_remove_r in Hnd. }
  assert (HC : NoDup (PyDict.keys C)).
  { unfold PyDict.keys in *. rewrite map_app in HAC.
    now apply NoDup_app_remove_l in HAC. }
  assert (Hdd : (if nonempty (children e)
                 then PyDict.update A (fold_children (map _xml_to_dict_recursive (children e)))
                 else A) = A ++ C).
  { destruct (children e) as [|c chn] eqn:Ec.
    - subst C. simpl. now rewrite app_nil_r.
    - cbn [nonempty]. unfold fold_children. rewrite fold_children_concat.
      fold C. rewrite (fold_entries_fresh C []) by exact HC.
      cbn [app]. now apply update_fresh. }
  rewrite Hdd. f_equal. f_equal. f_equal.
  destruct (stripped_text e) as [t|].
  - rewrite set_fresh; [now rewrite <- app_assoc|].
    rewrite app_assoc in Hnd. unfold PyDict.keys in *.
    rewrite map_app in Hnd. simpl in Hnd.
    apply NoDup_remove_2 in Hnd. now rewrite app_nil_r in Hnd.
  - now rewrite !app_nil_r.
Qed.

Lemma X3_entries_in_order_witness :
  _xml_to_dict_recursive
    (mkElement "p" [("id", " 5"); ("lang", "")] (Some " hi ")
       [leaf "name" "John"; new_element "gap"; leaf "age" "30"])
  = [("p", VDict [("@id", VStr " 5"); ("@lang", VStr ""); ("name", VStr "John");
                  ("age", VStr "30"); ("#text", VStr "hi")])].
Proof.
  apply (X3_entries_in_order
           (mkElement "p" [("id", " 5"); ("lang", "")] (Some " hi ")
              [leaf "name" "John"; new_element "gap"; leaf "age" "30"])).
  - reflexivity.
  - discriminate.
  - apply unique_NoDup. reflexivity.
  - apply unique_NoDup. reflexivity.
Defined.

(** ** Which entry wins under a key *)

Lemma get_prefixed (l : list (string * string)) (k : string) :
  PyDict.get k (map (fun kv => (("@" ++ fst kv)%string, VStr (snd kv))) l)
  = match k with
    | String "@" a => option_map VStr (PyDict.get a l)
    | _ => None
    end.
Proof.
  induction l as [|[k0 v0] l IH].
  - destruct k as [|c a]; [reflexivity|].
    destruct c as [[] [] [] [] [] [] [] []]; reflexivity.
  - cbn [map PyDict.get fst snd].
    destruct (String.eqb_spec ("@" ++ k0) k) as [<-|Hne].
    + simpl. now rewrite String.eqb_refl.
    + rewrite IH. destruct k as [|c a]; [reflexivity|].
      destruct (Ascii.eqb_spec c "@"%char) as [->|Hc].
      * cbn [PyDict.get]. destruct (String.eqb_spec k0 a) as [->|_]; [|reflexivity].
        now elim Hne.
      * destruct c as [[] [] [] [] [] [] [] []]; try reflexivity. now elim Hc.
Qed.

(** X4: in the mapping of an element that is not a text leaf, the stripped
    text holds the key [#text]; under any other key, and under [#text] when
    there is no text, the folded values of the children tagged with the key
    come first, and an attribute is found under [@] and its name only when no
    child with content carries that tag. *)
Theorem X4_lookup_precedence (e : Element) :
  nonempty (attrib e) || nonempty (children e) = true ->
  (children e = [] -> stripped_text e = None) ->
  NoDup (map fst (attrib e)) ->
  exists data_dict,
    _xml_to_dict_recursive e = [(tag e, VDict data_dict)] /\
    forall k,
      PyDict.get k data_dict =
        match (if k =? "#text" then stripped_text e else None) with
        | Some t => Some (VStr t)
        | None =>
            match folded (contributions k (children e)) with
            | Some v => Some v
            | None =>
                match k with
                | String "@" a => option_map VStr (PyDict.get a (attrib e))
                | _ => None
                end
            end
        end.
Proof.
  intros Hinner Hleaf Hattr. eexists. split; [now apply decode_inner|].
  intros k. cbv zeta.
  assert (Hdd : PyDict.get k
            (if nonempty (children e)
             then PyDict.update (attrib_entries e)
                    (fold_children (map _xml_to_dict_recursive (children e)))
             else attrib_entries e)
          = match folded (contributions k (children e)) with
            | Some v => Some v
            | None =>
                match k with
                | String "@" a => option_map VStr (PyDict.get a (attrib e))
                | _ => None
                end
            end).
  { rewrite <- get_prefixed, <- (attrib_entries_distinct e Hattr).
    destruct (children e) as [|c chn] eqn:Ec; [reflexivity|].
    cbn [nonempty]. rewrite get_update by apply NoDup_keys_fold_children.
    rewrite get_fold_children.
    destruct (folded (contributions k (c :: chn))); reflexivity. }
  destruct (stripped_text e) as [t|].
  - rewrite get_set. rewrite (String.eqb_sym k "#text").
    destruct ("#text" =? k); [reflexivity | exact Hdd].
  - destruct (k =? "#text"); exact Hdd.
Qed.

Lemma X4_lookup_precedence_witness :
  exists data_dict,
    _xml_to_dict_recursive
      (mkElement "p" [("id", "5"); ("a", "x")] (Some " both ")
         [leaf "a" "1"; leaf "@id" "child"; leaf "a" "2"; leaf "#text" "lost"])
    = [("p", VDict data_dict)] /\
    PyDict.get "#text" data_dict = Some (VStr "both") /\
    PyDict.get "@id" data_dict = Some (VStr "child") /\
    PyDict.get "@a" data_dict = Some (VStr "x") /\
    PyDict.get "a" data_dict = Some (VList [VStr "1"; VStr "2"]).
Proof.
  destruct (X4_lookup_precedence
              (mkElement "p" [("id", "5"); ("a", "x")] (Some " both ")
                 [leaf "a" "1"; leaf "@id" "child"; leaf "a" "2"; leaf "#text" "lost"]))
    as [d [Hd Hget]].
  - reflexivity.
  - discriminate.
  - apply unique_NoDup. reflexivity.
  - exists d. split; [exact Hd|].
    repeat split; rewrite Hget; reflexivity.
Defined.

(** ** What the decoder never builds *)

Section ForallValues.
Context {V : Type} (Q : V -> Prop).

Lemma Forall_set (k : string) (v : V) (d : PyDict.t V) :
  Forall (fun kv => Q (snd kv)) d -> Q v ->
  Forall (fun kv => Q (snd kv)) (PyDict.set k v d).
Proof.
  intros Hd Hv. induction d as [|[k0 v0] d IH]; simpl.
  - now constructor.
  - inversion Hd as [|? ? H0 Hd']; subst.
    destruct (k0 =? k); constructor; auto.
Qed.

Lemma Forall_update (d e : PyDict.t V) :
  Forall (fun kv => Q (snd kv)) d -> Forall (fun kv => Q (snd kv)) e ->
  Forall (fun kv => Q (snd kv)) (PyDict.update d e).
Proof.
  unfold PyDict.update. intros Hd He. revert d Hd.
  induction He as [|[k v] e Hkv He IH]; simpl; intros d Hd; [exact Hd|].
  apply IH. now apply Forall_set.
Qed.

Lemma Forall_get (k : string) (v : V) (d : PyDict.t V) :
  Forall (fun kv => Q (snd kv)) d -> PyDict.get k d = Some v -> Q v.
Proof.
  intros Hd. induction Hd as [|[k0 v0] d H0 Hd IH]; simpl; [discriminate|].
  destruct (k0 =? k); [intros [= <-]; exact H0 | exact IH].
Qed.

Lemma set_set (k : string) (v1 v2 : V) (d : PyDict.t V) :
  PyDict.set k v2 (PyDict.set k v1 d) = PyDict.set k v2 d.
Proof.
  induction d as [|[k0 v0] d IH]; simpl.
  - now rewrite String.eqb_refl.
  - destruct (k0 =? k) eqn:E; simpl; rewrite E; [reflexivity | now rewrite IH].
Qed.
End ForallValues.

Lemma entry_ok_plain (v : value) :
  isinstance_list v = false -> entry_ok v = decoded_ok v.
Proof. destruct v; try reflexivity. discriminate. Qed.

Lemma decoded_ok_dict (d : PyDict.t value) :
  decoded_ok (VDict d) = forallb (fun kv => entry_ok (snd kv)) d.
Proof. reflexivity. Qed.

Lemma entry_ok_fold_entry (cd : PyDict.t value) (k : string) (val : value) :
  Forall (fun kv => entry_ok (snd kv) = true) cd ->
  decoded_ok val = true ->
  Forall (fun kv => entry_ok (snd kv) = true) (fold_entry cd (k, val)).
Proof.
  intros Hcd Hval.
  assert (Hnl : isinstance_list val = false) by (destruct val; try reflexivity; discriminate).
  assert (Hitem : negb (isinstance_list val) && decoded_ok val = true)
    by now rewrite Hnl, Hval.
  unfold fold_entry. destruct (PyDict.get k cd) as [old|] eqn:E.
  - pose proof (Forall_get (fun v => entry_ok v = true) k old cd Hcd E) as Hold.
    cbv beta in Hold.
    destruct (isinstance_list old) eqn:Eold; cbn [negb].
    + rewrite E. destruct old as [ | | | | | l | ]; try discriminate.
      apply (Forall_set (fun v => entry_ok v = true)); [exact Hcd|].
      unfold entry_ok in Hold. apply andb_true_iff in Hold as [Hlen Hall].
      unfold entry_ok. rewrite length_app, forallb_app, Hall.
      cbn [forallb]. rewrite Hitem. cbn [andb]. rewrite andb_true_r.
      apply Nat.leb_le in Hlen. apply Nat.leb_le.
      apply (Nat.le_trans _ _ _ Hlen), Nat.le_add_r.
    + rewrite get_set, String.eqb_refl, set_set.
      apply (Forall_set (fun v => entry_ok v = true)); [exact Hcd|].
      rewrite (entry_ok_plain old Eold) in Hold.
      unfold entry_ok. cbn [app length forallb Nat.leb].
      now rewrite Eold, Hold, Hitem.
  - apply (Forall_set (fun v => entry_ok v = true)); [exact Hcd|].
    now rewrite entry_ok_plain.
Qed.

Lemma entry_ok_fold_entries (es cd : PyDict.t value) :
  Forall (fun kv => entry_ok (snd kv) = true) cd ->
  Forall (fun kv => decoded_ok (snd kv) = true) es ->
  Forall (fun kv => entry_ok (snd kv) = true) (fold_left fold_entry es cd).
Proof.
  intros Hcd Hes. revert cd Hcd.
  induction Hes as [|[k v] es Hkv Hes IH]; simpl; intros cd Hcd; [exact Hcd|].
  apply IH. now apply entry_ok_fold_entry.
Qed.

Lemma entry_ok_attrib_entries (e : Element) :
  Forall (fun kv => entry_ok (snd kv) = true) (attrib_entries e).
Proof.
  unfold attrib_entries. generalize (@nil (string * value)) (Forall_nil
    (fun kv : string * value => entry_ok (snd kv) = true)).
  induction (attrib e) as [|[k v] l IH]; simpl; intros acc Hacc; [exact Hacc|].
  apply IH. now apply (Forall_set (fun v => entry_ok v = true)).
Qed.

(** X5: whatever the element, every value in the decoded mapping is a string
    or a mapping of such values; a list occurs only as the value of a key,
    has two elements or more and holds no list: no number, boolean or [None],
    no empty or one-element list, no list inside a list. *)
Theorem X5_decoded_values (e : Element) :
  Forall (fun kv => decoded_ok (snd kv) = true) (_xml_to_dict_recursive e).
Proof.
  induction e as [n a x chn IH] using Element_ind.
  set (e := mkElement n a x chn) in *.
  destruct (has_content e) eqn:Hc; [|rewrite (decode_empty e Hc); constructor].
  destruct (nonempty (attrib e) || nonempty (children e)) eqn:Hinner.
  - destruct (stripped_text e) as [t|] eqn:Et.
    + destruct chn as [|c chn'] eqn:Echn.
      * rewrite (decode_leaf e t eq_refl Et). now repeat constructor.
      * rewrite (decode_inner e Hinner) by discriminate. repeat constructor.
        cbn [snd]. rewrite decoded_ok_dict. apply forallb_forall.
        apply Forall_forall. cbv zeta. rewrite Et.
        apply (Forall_set (fun v => entry_ok v = true)); [|reflexivity].
        cbn [children e nonempty].
        apply (Forall_update (fun v => entry_ok v = true));
          [apply entry_ok_attrib_entries|].
        unfold fold_children. rewrite fold_children_concat.
        apply entry_ok_fold_entries; [constructor|].
        apply Forall_concat, Forall_map. exact IH.
    + rewrite (decode_inner e Hinner) by (intros _; exact Et). repeat constructor.
      cbn [snd]. rewrite decoded_ok_dict. apply forallb_forall.
      apply Forall_forall. cbv zeta. rewrite Et.
      destruct chn as [|c chn'] eqn:Echn; cbn [children e nonempty].
      * apply entry_ok_attrib_entries.
      * apply (Forall_update (fun v => entry_ok v = true));
          [apply entry_ok_attrib_entries|].
        unfold fold_children. rewrite fold_children_concat.
        apply entry_ok_fold_entries; [constructor|].
        apply Forall_concat, Forall_map. exact IH.
  - unfold has_content in Hc. rewrite Hinner in Hc. simpl in Hc.
    destruct (stripped_text e) as [t|] eqn:Et; [|discriminate].
    apply orb_false_iff in Hinner as [_ Hch].
    destruct chn; [|discriminate].
    rewrite (decode_leaf e t eq_refl Et). now repeat constructor.
Qed.

(** ** What the encoder builds *)

Lemma encode_tag_attrib (data : value) (parent : Element) :
  tag (_dict_to_xml_recursive data parent) = tag parent /\
  attrib (_dict_to_xml_recursive data parent) = attrib parent.
Proof.
  destruct data; simpl; try rewrite fold_append; split; reflexivity.
Qed.

(** X6: encoding into an element keeps its tag, its attributes and the
    children it has; a mapping appends one child per key, tagged with the
    key, in the order of the mapping, a list one child tagged [item] per
    element, and neither touches the text; a scalar sets the text to its
    [str] and appends nothing. *)
Theorem X6_encoder_appends (data : value) (parent : Element) :
  tag (_dict_to_xml_recursive data parent) = tag parent /\
  attrib (_dict_to_xml_recursive data parent) = attrib parent /\
  exists added,
    children (_dict_to_xml_recursive data parent) = children parent ++ added /\
    map tag added =
      match data with
      | VDict entries => map fst entries
      | VList items => repeat "item" (length items)
      | _ => []
      end /\
    text (_dict_to_xml_recursive data parent) =
      match data with
      | VDict _ | VList _ => text parent
      | _ => Some (str data)
      end.
Proof.
  split; [apply encode_tag_attrib|]. split; [apply encode_tag_attrib|].
  destruct data as [ | b | n | r | s | items | entries ];
    try (exists []; simpl; rewrite app_nil_r; repeat split; reflexivity).
  - eexists. simpl. rewrite fold_append. cbn [children text]. split; [reflexivity|].
    split; [|reflexivity]. rewrite map_map.
    induction items as [|x items IH]; simpl; [reflexivity|].
    now rewrite IH, (proj1 (encode_tag_attrib x (new_element "item"))).
  - eexists. simpl. rewrite fold_append. cbn [children text]. split; [reflexivity|].
    split; [|reflexivity]. rewrite map_map. apply map_ext. intros kv.
    now rewrite (proj1 (encode_tag_attrib (snd kv) (new_element (fst kv)))).
Qed.

(** X7: the tree that [dict_to_xml] hands to the serialiser has no attribute
    anywhere and no element with both text and children, whatever the data
    and the root tag. *)
Theorem X7_encoded_tree (data : value) (root_tag : string) :
  encoded_ok (dict_to_xml_tree data root_tag) = true.
Proof.
  unfold dict_to_xml_tree. revert root_tag.
  induction data as [ | b | n | r | s | items IH | entries IH ] using value_ind;
    intros root_tag; try reflexivity.
  - rewrite encode_list. simpl. apply forallb_forall. intros c Hc.
    apply in_map_iff in Hc as [x [<- Hx]].
    rewrite Forall_forall in IH. now apply IH.
  - rewrite encode_dict. simpl. apply forallb_forall. intros c Hc.
    apply in_map_iff in Hc as [kv [<- Hkv]].
    rewrite Forall_forall in IH. now apply (IH kv Hkv).
Qed.

(** ** The round trip of any value *)










(** ** Which calls of the facade can return, and which tags it refuses *)

Ltac offered_tag H :=
  exfalso; apply H; simpl; tauto.

Ltac other_error :=
  match goal with
  | |- _ <-> _ => split; [ | intros H; offered_tag H ]
  end;
  repeat first
    [ rewrite bind_method
    | progress cbn [self_data self_data_type static raise fst snd
                    bind ret Monad_outcome call]
    | match goal with
      | |- context [json_dumps ?l ?x] => destruct (json_dumps l x) eqn:?
      | |- context [json_loads ?l ?x] => destruct (json_loads l x) eqn:?
      | |- context [yaml_dump ?l ?x] => destruct (yaml_dump l x) eqn:?
      | |- context [yaml_safe_load ?l ?x] => destruct (yaml_safe_load l x) eqn:?
      | |- context [fromstring ?l ?x] => destruct (fromstring l x) eqn:?
      | |- context [toprettyxml ?l ?x] => destruct (toprettyxml l x) eqn:?
      | |- context [isinstance_text ?d] => destruct (isinstance_text d) eqn:?
      | |- context [match ?d with Obj _ => _ | _ => _ end] => destruct d as [[]| |]
      end ];
  discriminate.

Ltac fall_through :=
  split; [ intros _ [E|[E|[E|[]]]]; symmetry in E; contradiction | reflexivity ].

Lemma unsupported_iff (lib : Collaborators) (self : DataConverter) :
  (fst (to_json lib self)
   = Raise (DataConverterError "Unsupported data type for JSON conversion")
   <-> ~ In (data_type self) ["xml"; "yaml"; "dict"]) /\
  (fst (to_xml lib self)
   = Raise (DataConverterError "Unsupported data type for XML conversion")
   <-> ~ In (data_type self) ["json"; "dict"; "yaml"]) /\
  (fst (to_yaml lib self)
   = Raise (DataConverterError "Unsupported data type for YAML conversion")
   <-> ~ In (data_type self) ["json"; "dict"; "xml"]).
Proof.
  destruct self as [d dt]. cbn [data_type]. split; [|split].
  - unfold to_json, xml_to_json, yaml_to_dict. rewrite bind_method.
    cbn [self_data_type data_type].
    destruct (String.eqb_spec dt "xml") as [->|H1]; [other_error|].
    destruct (String.eqb_spec dt "yaml") as [->|H2]; [other_error|].
    destruct (String.eqb_spec dt "dict") as [->|H3]; [other_error|].
    fall_through.
  - unfold to_xml, json_to_xml, dict_to_xml, yaml_to_dict. rewrite bind_method.
    cbn [self_data_type data_type].
    destruct (String.eqb_spec dt "json") as [->|H1]; [other_error|].
    destruct (String.eqb_spec dt "dict") as [->|H2]; [other_error|].
    destruct (String.eqb_spec dt "yaml") as [->|H3]; [other_error|].
    fall_through.
  - unfold to_yaml. rewrite bind_method.
    cbn [self_data_type data_type].
    destruct (String.eqb_spec dt "json") as [->|H1]; [other_error|].
    destruct (String.eqb_spec dt "dict") as [->|H2]; [other_error|].
    destruct (String.eqb_spec dt "xml") as [->|H3]; [other_error|].
    fall_through.
Qed.

Lemma constructed_tag (d : payload) (dt : string) (self : DataConverter) :
  __init__ d dt = Return self ->
  data_type self = dt /\ data self = d /\ In dt supported_types.
Proof.
  unfold __init__. destruct (existsb (String.eqb dt) supported_types) eqn:E; simpl.
  - intros [= <-]. repeat split. now apply supported_iff.
  - discriminate.
Qed.

(** X9: each method raises its own [Unsupported data type for ...
    conversion] exactly when the tag of the instance is none of the three it
    handles, whatever the payload and the libraries do; on an instance that
    the constructor returned this is exactly the request for the format the
    instance already has. *)
Theorem X9_unsupported_exactly (lib : Collaborators) (self : DataConverter) :
  ((fst (to_json lib self)
    = Raise (DataConverterError "Unsupported data type for JSON conversion")
    <-> ~ In (data_type self) ["xml"; "yaml"; "dict"]) /\
   (fst (to_xml lib self)
    = Raise (DataConverterError "Unsupported data type for XML conversion")
    <-> ~ In (data_type self) ["json"; "dict"; "yaml"]) /\
   (fst (to_yaml lib self)
    = Raise (DataConverterError "Unsupported data type for YAML conversion")
    <-> ~ In (data_type self) ["json"; "dict"; "xml"])) /\
  (forall d dt, __init__ d dt = Return self ->
     (fst (to_json lib self)
      = Raise (DataConverterError "Unsupported data type for JSON conversion")
      <-> dt = "json") /\
     (fst (to_xml lib self)
      = Raise (DataConverterError "Unsupported data type for XML conversion")
      <-> dt = "xml") /\
     (fst (to_yaml lib self)
      = Raise (DataConverterError "Unsupported data type for YAML conversion")
      <-> dt = "yaml")).
Proof.
  split; [apply unsupported_iff|].
  intros d dt Hinit.
  destruct (constructed_tag d dt self Hinit) as [Hdt [_ Hin]].
  destruct (unsupported_iff lib self) as [Hj [Hx Hy]].
  rewrite Hdt in Hj, Hx, Hy. rewrite Hj, Hx, Hy.
  simpl in Hin. destruct Hin as [<-|[<-|[<-|[<-|[]]]]];
    repeat split; intros H; try discriminate H; try reflexivity;
    try (exfalso; apply H; simpl; tauto);
    try (simpl; intros [E|[E|[E|[]]]]; discriminate E).
Qed.

Lemma X9_unsupported_exactly_witness :
  fst (to_xml refusing {| data := Obj (VDict []); data_type := "csv" |})
  = Raise (DataConverterError "Unsupported data type for XML conversion") /\
  (fst (to_yaml refusing {| data := Obj (VStr "a: 1"); data_type := "yaml" |})
   = Raise (DataConverterError "Unsupported data type for YAML conversion")
   <-> "yaml" = "yaml").
Proof.
  split.
  - apply (proj2 (proj1 (proj2 (proj1 (X9_unsupported_exactly refusing
                                  {| data := Obj (VDict []); data_type := "csv" |}))))).
    simpl. intros [H|[H|[H|[]]]]; discriminate H.
  - apply (proj2 (X9_unsupported_exactly refusing
                    {| data := Obj (VStr "a: 1"); data_type := "yaml" |})
             (Obj (VStr "a: 1")) "yaml" eq_refl).
Defined.

Ltac returned_cases :=
  repeat first
    [ rewrite bind_method
    | progress cbn [self_data self_data_type static raise fst snd data data_type]
    | match goal with
      | |- context [isinstance_text ?d] => destruct (isinstance_text d) eqn:?
      | |- context [match ?d with Obj _ => _ | _ => _ end] => destruct d as [[]| |]
      end ];
  try discriminate; intros _; split; try (intros _); try reflexivity;
  try (simpl; tauto); try assumption.

(** X10: a call that returns text was made on a tag the method handles, with
    a payload of the shape that tag stands for; the one exception is
    [to_json] on a [dict] source, which returns whatever [json.dumps] makes
    of the payload. *)
Theorem X10_returns_only_when_offered (lib : Collaborators) (self : DataConverter)
        (s : string) :
  (fst (to_json lib self) = Return s ->
   In (data_type self) ["xml"; "yaml"; "dict"] /\
   (data_type self <> "dict" -> expected_shape (data_type self) (data self) = true)) /\
  (fst (to_xml lib self) = Return s ->
   In (data_type self) ["json"; "dict"; "yaml"] /\
   expected_shape (data_type self) (data self) = true) /\
  (fst (to_yaml lib self) = Return s ->
   In (data_type self) ["json"; "dict"; "xml"] /\
   expected_shape (data_type self) (data self) = true).
Proof.
  destruct self as [d dt]. cbn [data_type data]. split; [|split].
  - unfold to_json. rewrite bind_method. cbn [self_data_type data_type].
    destruct (String.eqb_spec dt "xml") as [->|H1]; [returned_cases|].
    destruct (String.eqb_spec dt "yaml") as [->|H2]; [returned_cases|].
    destruct (String.eqb_spec dt "dict") as [->|H3]; [|discriminate].
    intros _. split; [simpl; tauto | intros H; now elim H].
  - unfold to_xml. rewrite bind_method. cbn [self_data_type data_type].
    destruct (String.eqb_spec dt "json") as [->|H1]; [returned_cases|].
    destruct (String.eqb_spec dt "dict") as [->|H2]; [returned_cases|].
    destruct (String.eqb_spec dt "yaml") as [->|H3]; [returned_cases|].
    discriminate.
  - unfold to_yaml. rewrite bind_method. cbn [self_data_type data_type].
    destruct (String.eqb_spec dt "json") as [->|H1]; [returned_cases|].
    destruct (String.eqb_spec dt "dict") as [->|H2]; [returned_cases|].
    destruct (String.eqb_spec dt "xml") as [->|H3]; [returned_cases|].
    discriminate.
Qed.

Lemma X10_returns_only_when_offered_witness :
  In "dict" ["json"; "dict"; "xml"] /\
  expected_shape "dict" (Obj (VDict [])) = true.
Proof.
  apply (proj2 (proj2 (X10_returns_only_when_offered
                         (answering ("{}" ++ newline) VNone (new_element "root"))
                         {| data := Obj (VDict []); data_type := "dict" |}
                         ("{}" ++ newline)%string))).
  reflexivity.
Defined.

(** ** The order of the keys under repeated tags *)

Lemma mem_keys {V : Type} (k : string) (d : PyDict.t V) :
  PyDict.mem k d = existsb (String.eqb k) (PyDict.keys d).
Proof.
  unfold PyDict.mem. induction d as [|[k0 v0] d IH]; simpl; [reflexivity|].
  rewrite (String.eqb_sym k k0). destruct (k0 =? k); [reflexivity | exact IH].
Qed.

Lemma keys_fold_entry (cd : PyDict.t value) (k : string) (v : value) :
  PyDict.keys (fold_entry cd (k, v))
  = if PyDict.mem k cd then PyDict.keys cd else PyDict.keys cd ++ [k].
Proof.
  unfold fold_entry, PyDict.mem. destruct (PyDict.get k cd) as [old|] eqn:E.
  - assert (Hset : forall w, PyDict.keys (PyDict.set k w cd) = PyDict.keys cd).
    { intros w. rewrite keys_set. unfold PyDict.mem. now rewrite E. }
    destruct (isinstance_list old); cbn [negb].
    + rewrite E. destruct old; try reflexivity. apply Hset.
    + rewrite get_set, String.eqb_refl, set_set. apply Hset.
  - rewrite keys_set. unfold PyDict.mem. now rewrite E.
Qed.

Lemma filter_filter {A : Type} (f g : A -> bool) (l : list A) :
  filter f (filter g l) = filter (fun x => g x && f x) l.
Proof.
  induction l as [|x l IH]; simpl; [reflexivity|].
  destruct (g x); simpl; [destruct (f x); now rewrite IH | exact IH].
Qed.

Lemma keys_fold_entries (es cd : PyDict.t value) :
  PyDict.keys (fold_left fold_entry es cd)
  = PyDict.keys cd
    ++ filter (fun x => negb (existsb (String.eqb x) (PyDict.keys cd)))
         (first_occurrences (map fst es)).
Proof.
  revert cd. induction es as [|[k v] es IH]; intros cd; cbn [fold_left map fst].
  - simpl. now rewrite app_nil_r.
  - rewrite IH, keys_fold_entry, mem_keys. cbn [first_occurrences filter].
    destruct (existsb (String.eqb k) (PyDict.keys cd)) eqn:E; cbn [negb].
    + f_equal. rewrite filter_filter. apply filter_ext. intros x.
      destruct (String.eqb_spec x k) as [->|_]; [now rewrite E | reflexivity].
    + rewrite <- app_assoc. cbn [app]. f_equal. f_equal.
      rewrite filter_filter. apply filter_ext. intros x.
      rewrite existsb_app. cbn [existsb]. rewrite orb_false_r, negb_orb.
      apply andb_comm.
Qed.

Lemma tags_with_content (chn : list Element) :
  map fst (concat (map _xml_to_dict_recursive chn)) = map tag (filter has_content chn).
Proof.
  induction chn as [|c chn IH]; simpl; [reflexivity|].
  rewrite map_app, IH.
  destruct (decode_one_or_none c) as [[-> ->]|[-> [v ->]]]; reflexivity.
Qed.

(** X11: the mapping that the loop over the children builds has one key per
    tag found among the children with content, in the order in which each
    tag occurs first in the document. *)
Theorem X11_keys_in_first_occurrence_order (e : Element) :
  PyDict.keys (fold_children (map _xml_to_dict_recursive (children e)))
  = first_occurrences (map tag (filter has_content (children e))).
Proof.
  unfold fold_children. rewrite fold_children_concat, keys_fold_entries.
  rewrite tags_with_content. cbn [PyDict.keys map app existsb negb].
  generalize (first_occurrences (map tag (filter has_content (children e)))).
  intros l. induction l as [|x l IH]; simpl; [reflexivity | now rewrite IH].
Qed.
